(** * ChatPDFProcessor: a shallow embedding of [src/main.py]

    The script wires a PDF loader, a text splitter, an embedding model, a
    vector store, a chat model and an HTTP search API into one class,
    [ChatPDFProcessor].  The class is embedded here as a record for the
    object's attributes and one monadic definition per method.  The monad
    threads the object, the outside world the collaborators act on, and the
    lines written to the logger, and it carries Python's exceptions: a
    raised exception leaves every earlier assignment in place, as in
    Python. *)

From Stdlib Require Import ZArith PrimFloat Ascii String.
From stdpp Require Import gmap strings list.

#[local] Set Warnings "-register-all,-inexact-float".
#[local] Open Scope string_scope.

(** ** Python values and exceptions *)

(** The values a decoded JSON body is made of; [query_document] and
    [query_tavily] return one of them (a [str] on every documented path). *)
Inductive pyval : Type :=
  | PNone
  | PBool (b : bool)
  | PInt (n : Z)
  | PFloat (f : float)
  | PStr (s : string)
  | PList (l : list pyval)
  | PDict (d : gmap string pyval).

(** Exceptions.  [ValueError] is the one the script raises itself;
    [AttributeError] and [KeyError] come from the built-in operations it
    uses; [Foreign cls msg] is any exception a library call raises. *)
Inductive exn : Type :=
  | ValueError (msg : string)
  | AttributeError (msg : string)
  | KeyError (key : string)
  | Foreign (cls msg : string).

Definition result (A : Type) : Type := (exn + A)%type.

(** [type(v).__name__] *)
Definition py_type_name (v : pyval) : string :=
  match v with
  | PNone => "NoneType"
  | PBool _ => "bool"
  | PInt _ => "int"
  | PFloat _ => "float"
  | PStr _ => "str"
  | PList _ => "list"
  | PDict _ => "dict"
  end.

(** [v.get(key, default)]: only a dict has the method; on any other value
    the attribute lookup raises, naming the value's type. *)
Definition py_get (v : pyval) (key : string) (default : pyval) : result pyval :=
  match v with
  | PDict d => inr (match d !! key with Some x => x | None => default end)
  | _ =>
      inl (AttributeError
             ("'" +:+ py_type_name v +:+ "' object has no attribute 'get'"))
  end.

(** [f"{x}"] for an optional string: [None] prints as its name. *)
Definition py_str (x : option string) : string :=
  match x with
  | Some s => s
  | None => "None"
  end.

Definition LF : string := String "010"%char "".

(** [sep.join(parts)] *)
Fixpoint join (sep : string) (parts : list string) : string :=
  match parts with
  | [] => ""
  | [p] => p
  | p :: rest => p +:+ sep +:+ join sep rest
  end.

(** ** [str.format] on named fields

    The prompt template is rendered by Python's format mini-language:
    [{name}] is replaced by the value bound to [name], doubled braces
    stand for one brace, and the substituted values are not scanned
    again. *)
Inductive fmt_mode : Type :=
  | Text
  | Opened
  | Field (name : string)
  | Closed.

Definition snoc (s : string) (c : ascii) : string := s +:+ String c "".

Definition emit (c : ascii) (r : result string) : result string :=
  match r with
  | inl e => inl e
  | inr s => inr (String c s)
  end.

Definition emit_str (v : string) (r : result string) : result string :=
  match r with
  | inl e => inl e
  | inr s => inr (v +:+ s)
  end.

Fixpoint format_from (m : fmt_mode) (kwargs : gmap string string)
    (template : string) : result string :=
  match template with
  | EmptyString =>
      match m with
      | Text => inr ""
      | Opened => inl (ValueError "Single '{' encountered in format string")
      | Field _ => inl (ValueError "expected '}' before end of string")
      | Closed => inl (ValueError "Single '}' encountered in format string")
      end
  | String c rest =>
      match m with
      | Text =>
          if bool_decide (c = "{"%char) then format_from Opened kwargs rest
          else if bool_decide (c = "}"%char) then format_from Closed kwargs rest
          else emit c (format_from Text kwargs rest)
      | Opened =>
          if bool_decide (c = "{"%char) then emit c (format_from Text kwargs rest)
          else if bool_decide (c = "}"%char) then
            inl (Foreign "IndexError"
                   "Replacement index 0 out of range for positional args tuple")
          else format_from (Field (String c "")) kwargs rest
      | Field name =>
          if bool_decide (c = "}"%char) then
            match kwargs !! name with
            | Some v => emit_str v (format_from Text kwargs rest)
            | None => inl (KeyError name)
            end
          else format_from (Field (snoc name c)) kwargs rest
      | Closed =>
          if bool_decide (c = "}"%char) then emit c (format_from Text kwargs rest)
          else inl (ValueError "Single '}' encountered in format string")
      end
  end.

Definition format (template : string) (kwargs : gmap string string)
  : result string :=
  format_from Text kwargs template.

(** ** The objects the constructor builds *)

Record ChatOllama : Type := { llm_name : string }.

Record OllamaEmbeddings : Type := { embedding_name : string }.

Record RecursiveCharacterTextSplitter : Type :=
  { chunk_size : Z; chunk_overlap : Z }.

Record ChatPromptTemplate : Type := { template : string }.

(** A chat message: the rendered prompt goes in as one human message and
    the model answers with one message. *)
Record message : Type := { role : string; content : string }.

(** [requests.Response], as far as the script reads it: the status and
    what [response.json()] gives, a decoded value or the exception the
    decoder raises on a body that is not JSON. *)
Record Response : Type := { status_code : Z; json : result pyval }.

(** The retriever handle: the store it was taken from together with the
    search configuration it was given, [search_kwargs] being the dict
    [{"k": k, "score_threshold": score_threshold}]. *)
Record VectorStoreRetriever (Store : Type) : Type :=
  { vectorstore : Store;
    search_type : string;
    search_k : Z;
    search_score_threshold : float }.

Arguments vectorstore {Store} _.
Arguments search_type {Store} _.
Arguments search_k {Store} _.
Arguments search_score_threshold {Store} _.

(** ** The collaborators

    Everything the script imports and calls.  A call that reaches outside
    the process (file system, embedding service, vector database, chat
    model, HTTP) takes the world and returns the next one, with either a
    value or the exception it raised; splitting and metadata filtering
    work on the documents alone.  [store_bool] is Python's truth value of
    a store object, which [query_document] tests with [not]: a class is
    free to define it (through [__bool__] or [__len__], the latter a count
    of what the database holds), and an object of a class that defines
    neither is true. *)
Class Collaborators : Type :=
  { World : Type;
    Document : Type;
    page_content : Document -> string;
    VectorStore : Type;
    store_bool : VectorStore -> World -> bool;
    PyPDFLoader_load : string -> World -> result (list Document) * World;
    split_documents :
      RecursiveCharacterTextSplitter -> list Document -> list Document;
    filter_complex_metadata : list Document -> list Document;
    Chroma_from_documents :
      list Document -> OllamaEmbeddings -> string ->
      World -> result VectorStore * World;
    retriever_invoke :
      VectorStoreRetriever VectorStore -> string ->
      World -> result (list Document) * World;
    ChatOllama_invoke :
      ChatOllama -> list message -> World -> result message * World;
    requests_post :
      string -> pyval -> gmap string string -> World -> result Response * World }.

(** ** The processor and its methods *)

Section Processor.
Context `{Collaborators}.

(** The attributes [__init__] assigns, in its order. *)
Record ChatPDFProcessor : Type :=
  { llm_model : ChatOllama;
    embedding_model : OllamaEmbeddings;
    text_splitter : RecursiveCharacterTextSplitter;
    prompt_template : ChatPromptTemplate;
    vector_store : option VectorStore;
    retriever : option (VectorStoreRetriever VectorStore);
    tavily_api_key : option string }.

Definition set_vector_store (v : option VectorStore) (p : ChatPDFProcessor)
  : ChatPDFProcessor :=
  {| llm_model := llm_model p;
     embedding_model := embedding_model p;
     text_splitter := text_splitter p;
     prompt_template := prompt_template p;
     vector_store := v;
     retriever := retriever p;
     tavily_api_key := tavily_api_key p |}.

Definition set_retriever (r : option (VectorStoreRetriever VectorStore))
    (p : ChatPDFProcessor) : ChatPDFProcessor :=
  {| llm_model := llm_model p;
     embedding_model := embedding_model p;
     text_splitter := text_splitter p;
     prompt_template := prompt_template p;
     vector_store := vector_store p;
     retriever := r;
     tavily_api_key := tavily_api_key p |}.

(** What a method runs in: the object, the world, the logger's output
    (oldest line first). *)
Record session : Type :=
  { self : ChatPDFProcessor; world : World; logged : list string }.

Definition M (A : Type) : Type := session -> result A * session.

Definition ret {A} (a : A) : M A := fun s => (inr a, s).

Definition raise {A} (e : exn) : M A := fun s => (inl e, s).

Definition bind {A B} (c : M A) (k : A -> M B) : M B :=
  fun s =>
    match c s with
    | (inl e, s') => (inl e, s')
    | (inr a, s') => k a s'
    end.

Definition attr {A} (f : ChatPDFProcessor -> A) : M A :=
  fun s => (inr (f (self s)), s).

Definition assign (f : ChatPDFProcessor -> ChatPDFProcessor) : M unit :=
  fun s =>
    (inr tt, {| self := f (self s); world := world s; logged := logged s |}).

Definition logger_info (line : string) : M unit :=
  fun s =>
    (inr tt,
     {| self := self s; world := world s; logged := logged s ++ [line] |}).

(** A call to a collaborator that acts on the world. *)
Definition call {A} (f : World -> result A * World) : M A :=
  fun s =>
    let (r, w) := f (world s) in
    (r, {| self := self s; world := w; logged := logged s |}).

(** Reading the world without changing it. *)
Definition observe {A} (f : World -> A) : M A :=
  fun s => (inr (f (world s)), s).

Definition lift {A} (r : result A) : M A := fun s => (r, s).
End Processor.

Notation "x <- c ;; k" := (bind c (fun x => k))
  (at level 100, c at next level, right associativity).
Notation "c ;; k" := (bind c (fun _ => k))
  (at level 100, right associativity).

Section Methods.
Context `{Collaborators}.

Definition indent : string := "            ".

(** The text handed to [ChatPromptTemplate.from_template]: the literal
    between the triple quotes, line by line. *)
Definition PROMPT : string :=
  LF +:+
  indent +:+ "You are a helpful assistant answering questions based on the uploaded document." +:+ LF +:+
  indent +:+ "Context:" +:+ LF +:+
  indent +:+ "{context}" +:+ LF +:+
  indent +:+ LF +:+
  indent +:+ "Question:" +:+ LF +:+
  indent +:+ "{question}" +:+ LF +:+
  indent +:+ LF +:+
  indent +:+ "Provide a clear and helpful explanation." +:+ LF +:+
  indent.

Definition default_llm_model : string := "deepseek-coder:latest".
Definition default_embedding_model : string := "mxbai-embed-large".
Definition default_k : Z := 5.
Definition default_score_threshold : float := 0.2%float.

(** [ChatPDFProcessor.__init__] *)
Definition init (llm embedding : string) (key : option string)
  : ChatPDFProcessor :=
  {| llm_model := {| llm_name := llm |};
     embedding_model := {| embedding_name := embedding |};
     text_splitter := {| chunk_size := 1024; chunk_overlap := 100 |};
     prompt_template := {| template := PROMPT |};
     vector_store := None;
     retriever := None;
     tavily_api_key := key |}.

(** [ChatPDFProcessor.ingest_pdf] *)
Definition ingest_pdf (pdf_file_path : string) : M unit :=
  logger_info ("Starting ingestion for file: " +:+ pdf_file_path) ;;
  documents <- call (PyPDFLoader_load pdf_file_path) ;;
  splitter <- attr text_splitter ;;
  let chunks := split_documents splitter documents in
  let chunks := filter_complex_metadata chunks in
  embedding <- attr embedding_model ;;
  store <- call (Chroma_from_documents chunks embedding "chroma_db") ;;
  assign (set_vector_store (Some store)) ;;
  logger_info "Ingestion completed. Document embeddings stored successfully.".

(** [ChatPDFProcessor.query_tavily] *)
Definition query_tavily (query : string) : M pyval :=
  key <- attr tavily_api_key ;;
  let headers : gmap string string :=
    {[ "Authorization" := "Bearer " +:+ py_str key ]} in
  response <-
    call (requests_post "https://api.tavily.com/v1/query"
            (PDict {[ "query" := PStr query ]}) headers) ;;
  if (status_code response =? 200)%Z then
    body <- lift (json response) ;;
    lift (py_get body "answer" (PStr "No answer found in Tavily."))
  else
    ret (PStr "Tavily API error. Please try again later.").

(** [VectorStore.as_retriever(search_type=..., search_kwargs=...)] *)
Definition as_retriever (store : VectorStore) (kind : string) (k : Z)
    (score_threshold : float) : VectorStoreRetriever VectorStore :=
  {| vectorstore := store;
     search_type := kind;
     search_k := k;
     search_score_threshold := score_threshold |}.

(** The chain [RunnablePassthrough() | prompt_template | llm_model |
    StrOutputParser()] run on the input dict: the input is passed on as
    it is, the template renders it into one human message, the chat
    model answers, and the parser takes the answer's text. *)
Definition chain_invoke (formatted_input : gmap string string) : M pyval :=
  prompt <- attr prompt_template ;;
  rendered <- lift (format (template prompt) formatted_input) ;;
  llm <- attr llm_model ;;
  reply <-
    call (ChatOllama_invoke llm [ {| role := "human"; content := rendered |} ]) ;;
  ret (PStr (content reply)).

(** [ChatPDFProcessor.query_document].  The first test, [not
    self.vector_store], holds for [None] and for a store whose truth
    value is false.  The second, [not self.retriever], holds for [None]
    only: a retriever is a plain object.  After it [self.retriever] is
    [r], the retriever the search is run with. *)
Definition query_document (query : string) (k : Z) (score_threshold : float)
  : M pyval :=
  store <- attr vector_store ;;
  match store with
  | None => raise (ValueError "No document ingested. Please ingest a document first.")
  | Some vs =>
      truth <- observe (store_bool vs) ;;
      if negb truth then
        raise (ValueError "No document ingested. Please ingest a document first.")
      else
        cached <- attr retriever ;;
        r <- match cached with
             | Some r => ret r
             | None =>
                 let r := as_retriever vs "similarity_score_threshold" k
                            score_threshold in
                 assign (set_retriever (Some r)) ;;
                 ret r
             end ;;
        logger_info ("Retrieving context for query: " +:+ query) ;;
        retrieved_docs <- call (retriever_invoke r query) ;;
        match retrieved_docs with
        | [] =>
            logger_info "No relevant context found in PDF. Using Tavily for fallback." ;;
            query_tavily query
        | _ :: _ =>
            let formatted_input : gmap string string :=
              {[ "context" := join (LF +:+ LF) (page_content <$> retrieved_docs);
                 "question" := query ]} in
            logger_info "Generating response using the LLM." ;;
            chain_invoke formatted_input
        end
  end.

(** [ChatPDFProcessor.clear_data] *)
Definition clear_data : M unit :=
  logger_info "Clearing vector store and retriever." ;;
  assign (set_vector_store None) ;;
  assign (set_retriever None).
End Methods.

(** ** Sessions: a caller driving one processor

    The caller constructs the processor and then calls its methods in any
    order, catching what they raise; a method that returns nothing gives
    [None]. *)
Inductive op : Type :=
  | Ingest (pdf_file_path : string)
  | Query (query : string) (k : Z) (score_threshold : float)
  | Clear.

Section Sessions.
Context `{Collaborators}.

Definition start (llm embedding : string) (key : option string) (w : World)
  : session :=
  {| self := init llm embedding key; world := w; logged := [] |}.

Definition perform (o : op) : M pyval :=
  match o with
  | Ingest path => ingest_pdf path ;; ret PNone
  | Query query k score_threshold => query_document query k score_threshold
  | Clear => clear_data ;; ret PNone
  end.

Fixpoint run (ops : list op) (s : session) : session :=
  match ops with
  | [] => s
  | o :: rest => run rest (snd (perform o s))
  end.

Definition succeeded {A} (out : result A * session) : bool :=
  match fst out with
  | inr _ => true
  | inl _ => false
  end.

(** [unindexed ops s b]: starting from [s], where [b] tells whether the
    session has no index, does it have none after [ops]?  An ingestion
    that returns creates one, [clear_data] drops it, and nothing else
    changes it. *)
Fixpoint unindexed (ops : list op) (s : session) (b : bool) : bool :=
  match ops with
  | [] => b
  | o :: rest =>
      let b' :=
        match o with
        | Ingest path => if succeeded (ingest_pdf path s) then false else b
        | Query _ _ _ => b
        | Clear => true
        end in
      unindexed rest (snd (perform o s)) b'
  end.

(** What the constructor fixes: every attribute but the two handles. *)
Definition configuration (p : ChatPDFProcessor)
  : ChatOllama * OllamaEmbeddings * RecursiveCharacterTextSplitter
    * ChatPromptTemplate * option string :=
  (llm_model p, embedding_model p, text_splitter p, prompt_template p,
   tavily_api_key p).

(** The retriever a query searches with: the cached one when there is
    one, else the one built from this call's arguments. *)
Definition retriever_in_use (p : ChatPDFProcessor) (vs : VectorStore)
    (k : Z) (score_threshold : float) : VectorStoreRetriever VectorStore :=
  match retriever p with
  | Some r => r
  | None => as_retriever vs "similarity_score_threshold" k score_threshold
  end.

(** The session once the retrieval step of a query has run: the
    retriever is cached, the search has acted on the world, and one line
    is logged. *)
Definition after_retrieval (s : session)
    (r : VectorStoreRetriever VectorStore) (query : string) (w : World)
  : session :=
  {| self := set_retriever (Some r) (self s);
     world := w;
     logged := logged s ++ ["Retrieving context for query: " +:+ query] |}.

Definition note (line : string) (s : session) : session :=
  {| self := self s; world := world s; logged := logged s ++ [line] |}.

(** The prompt text with the two fields filled in. *)
Definition rendered_prompt (context question : string) : string :=
  LF +:+
  indent +:+ "You are a helpful assistant answering questions based on the uploaded document." +:+ LF +:+
  indent +:+ "Context:" +:+ LF +:+
  indent +:+ context +:+ LF +:+
  indent +:+ LF +:+
  indent +:+ "Question:" +:+ LF +:+
  indent +:+ question +:+ LF +:+
  indent +:+ LF +:+
  indent +:+ "Provide a clear and helpful explanation." +:+ LF +:+
  indent.

Definition TAVILY_URL : string := "https://api.tavily.com/v1/query".

(** The request [query_tavily] sends for a question. *)
Definition tavily_request (p : ChatPDFProcessor) (query : string)
  : World -> result Response * World :=
  requests_post TAVILY_URL (PDict {[ "query" := PStr query ]})
    {[ "Authorization" := "Bearer " +:+ py_str (tavily_api_key p) ]}.

(** A history made of queries only. *)
Definition only_queries (ops : list op) : bool :=
  forallb (fun o => match o with Query _ _ _ => true | _ => false end) ops.

(** The two handles agree: a cached retriever comes with an index, and it
    was built for the thresholded similarity search. *)
Definition handles_consistent (p : ChatPDFProcessor) : Prop :=
  forall r,
    retriever p = Some r ->
    is_Some (vector_store p)
    /\ search_type r = "similarity_score_threshold".
End Sessions.

(** ** A small concrete set of collaborators

    Used to run the methods on concrete sessions.  The world is the
    journal of the outside calls made so far together with what the
    vector database holds on disk: every ingestion adds its chunks to the
    one collection the script persists into, and every search reads that
    collection, through whichever handle it is made.  A store handle
    names the chunks it was created with.  A chunk is relevant to a query
    (score 1, else 0) when it starts with it; the search API answers by
    the question it is asked.  The pages are far shorter than a chunk, so
    splitting leaves them as they are. *)
Module Demo.
Record page : Type := { page_text : string; page_source : string }.

Record outside : Type := { journal : list string; persisted : list page }.

Definition went (lines : list string) (held : list page) : outside :=
  {| journal := lines; persisted := held |}.

Definition noted (line : string) (w : outside) : outside :=
  {| journal := journal w ++ [line]; persisted := persisted w |}.

Definition load (path : string) (w : outside)
  : result (list page) * outside :=
  let w' := noted ("load " +:+ path) w in
  if bool_decide (path = "a.pdf") then
    (inr [ {| page_text := "alpha one"; page_source := path |};
           {| page_text := "alpha two"; page_source := path |};
           {| page_text := "gamma"; page_source := path |} ], w')
  else if bool_decide (path = "b.pdf") then
    (inr [ {| page_text := "beta"; page_source := path |} ], w')
  else (inl (Foreign "FileNotFoundError" path), w').

Definition split (splitter : RecursiveCharacterTextSplitter)
    (pages : list page) : list page :=
  pages.

Definition index (chunks : list page) (embedding : OllamaEmbeddings)
    (persist_directory : string) (w : outside)
  : result (list page) * outside :=
  (inr chunks,
   {| journal := journal w ++ ["index into " +:+ persist_directory];
      persisted := persisted w ++ chunks |}).

Definition relevant (query : string) (p : page) : bool :=
  String.prefix query (page_text p).

Definition score (query : string) (p : page) : float :=
  if relevant query p then 1%float else 0%float.

Definition search (r : VectorStoreRetriever (list page)) (query : string)
    (w : outside) : result (list page) * outside :=
  let ranked :=
    (List.filter (relevant query) (persisted w)
     ++ List.filter (fun p => negb (relevant query p)) (persisted w))%list in
  let nearest := take (Z.to_nat (search_k r)) ranked in
  (inr (List.filter
          (fun p => PrimFloat.leb (search_score_threshold r) (score query p))
          nearest),
   noted ("search " +:+ query) w).

Definition chat (llm : ChatOllama) (prompt : list message) (w : outside)
  : result message * outside :=
  (inr {| role := "ai";
          content := "answer to: " +:+ join LF (content <$> prompt) |},
   noted ("chat " +:+ llm_name llm) w).

Definition post (url : string) (body : pyval) (headers : gmap string string)
    (w : outside) : result Response * outside :=
  let w' := noted ("post " +:+ url) w in
  match body with
  | PDict d =>
      match d !! "query" with
      | Some (PStr q) =>
          if bool_decide (q = "outage") then
            (inr {| status_code := 503;
                    json := inl (Foreign "JSONDecodeError" "Expecting value") |},
             w')
          else if bool_decide (q = "garbled") then
            (inr {| status_code := 200;
                    json := inl (Foreign "JSONDecodeError" "Expecting value") |},
             w')
          else if bool_decide (q = "silent") then
            (inr {| status_code := 200; json := inr (PDict ∅) |}, w')
          else
            (inr {| status_code := 200;
                    json := inr (PDict {[ "answer" := PStr ("web: " +:+ q) ]}) |},
             w')
      | _ => (inr {| status_code := 400; json := inr (PDict ∅) |}, w')
      end
  | _ => (inr {| status_code := 400; json := inr (PDict ∅) |}, w')
  end.

#[global] Instance collaborators : Collaborators :=
  {| World := outside;
     Document := page;
     page_content := page_text;
     VectorStore := list page;
     store_bool := fun _ _ => true;
     PyPDFLoader_load := load;
     split_documents := split;
     filter_complex_metadata := fun chunks => chunks;
     Chroma_from_documents := index;
     retriever_invoke := search;
     ChatOllama_invoke := chat;
     requests_post := post |}.

Definition fresh : session :=
  start default_llm_model default_embedding_model (Some "tvly-key")
    (went [] []).

Definition a_chunks : list page :=
  [ {| page_text := "alpha one"; page_source := "a.pdf" |};
    {| page_text := "alpha two"; page_source := "a.pdf" |};
    {| page_text := "gamma"; page_source := "a.pdf" |} ].

Definition b_chunks : list page :=
  [ {| page_text := "beta"; page_source := "b.pdf" |} ].

(** A session with [a.pdf] ingested and nothing asked yet. *)
Definition indexed : session := run [Ingest "a.pdf"] fresh.

(** The same session after one query with the default arguments. *)
Definition asked : session :=
  run [Ingest "a.pdf"; Query "alpha" default_k default_score_threshold] fresh.

(** ... and after a second document was ingested on top. *)
Definition reingested : session :=
  run [Ingest "a.pdf"; Query "alpha" default_k default_score_threshold;
       Ingest "b.pdf"] fresh.

(** A history after which nothing is indexed: one ingestion failed, one
    succeeded, and the session was cleared. *)
Definition cleared_history : list op :=
  [ Ingest "missing.pdf"; Query "alpha" default_k default_score_threshold;
    Ingest "a.pdf"; Query "alpha" default_k default_score_threshold; Clear ].

(** The session [reingested] with its cached retriever dropped, as an
    ingestion that invalidated it would leave it. *)
Definition invalidated : session :=
  {| self := set_retriever None (self reingested);
     world := world reingested;
     logged := logged reingested |}.
End Demo.

(** ** Collaborators that fail

    A second concrete set, for running the methods when a service is
    down.  Loading gives one page holding the path; the index refuses the
    document [huge.pdf]; the search times out on the query [timeout],
    finds nothing for [offline] and otherwise returns every chunk the
    collection holds; the chat model is not installed; the search API is
    unreachable for the question [offline] and otherwise answers 200 with
    a JSON list.  The world is the one of [Demo]. *)
Module Outage.
Definition load (path : string) (w : Demo.outside)
  : result (list Demo.page) * Demo.outside :=
  (inr [ {| Demo.page_text := path; Demo.page_source := path |} ],
   Demo.noted ("load " +:+ path) w).

Definition index (chunks : list Demo.page) (embedding : OllamaEmbeddings)
    (persist_directory : string) (w : Demo.outside)
  : result (list Demo.page) * Demo.outside :=
  if bool_decide (Demo.page_text <$> chunks = ["huge.pdf"]) then
    (inl (Foreign "ConnectionError" "embedding service unreachable"),
     Demo.noted "index refused" w)
  else
    (inr chunks,
     {| Demo.journal :=
          Demo.journal w ++ ["index into " +:+ persist_directory];
        Demo.persisted := Demo.persisted w ++ chunks |}).

Definition search (r : VectorStoreRetriever (list Demo.page)) (query : string)
    (w : Demo.outside) : result (list Demo.page) * Demo.outside :=
  if bool_decide (query = "timeout") then
    (inl (Foreign "ReadTimeout" "vector database"),
     Demo.noted "search timed out" w)
  else if bool_decide (query = "offline") then
    (inr [], Demo.noted ("search " +:+ query) w)
  else (inr (Demo.persisted w), Demo.noted ("search " +:+ query) w).

Definition chat (llm : ChatOllama) (prompt : list message) (w : Demo.outside)
  : result message * Demo.outside :=
  (inl (Foreign "ResponseError" "model not found"),
   Demo.noted "chat refused" w).

Definition post (url : string) (body : pyval) (headers : gmap string string)
    (w : Demo.outside) : result Response * Demo.outside :=
  let listing : result Response * Demo.outside :=
    (inr {| status_code := 200; json := inr (PList [PStr "first hit"]) |},
     Demo.noted ("post " +:+ url) w) in
  match body with
  | PDict d =>
      match d !! "query" with
      | Some (PStr q) =>
          if bool_decide (q = "offline") then
            (inl (Foreign "ConnectionError" "api.tavily.com"),
             Demo.noted "post failed" w)
          else listing
      | _ => listing
      end
  | _ => listing
  end.

Definition collaborators : Collaborators :=
  {| World := Demo.outside;
     Document := Demo.page;
     page_content := Demo.page_text;
     VectorStore := list Demo.page;
     store_bool := fun _ _ => true;
     PyPDFLoader_load := load;
     split_documents := fun _ pages => pages;
     filter_complex_metadata := fun chunks => chunks;
     Chroma_from_documents := index;
     retriever_invoke := search;
     ChatOllama_invoke := chat;
     requests_post := post |}.

Definition fresh : @session collaborators :=
  @start collaborators default_llm_model default_embedding_model None
    (Demo.went [] []).

(** A session with [notes.pdf] ingested. *)
Definition indexed : @session collaborators :=
  @run collaborators [Ingest "notes.pdf"] fresh.
End Outage.

(** * Properties *)

(** Unfolds the monad's operations, so that a method becomes a case
    analysis on what the collaborators return. *)
Ltac unfold_m :=
  unfold bind, attr, assign, call, observe, lift, ret, raise, logger_info in *;
  simpl in *.

(** Case analysis on an innermost scrutinee of the goal: the result of a
    collaborator call, or a test. *)
Ltac next_case :=
  match goal with
  | |- context [match ?c with _ => _ end] =>
      lazymatch c with
      | context [match _ with _ => _ end] => fail
      | _ => destruct c eqn:?
      end
  end; simpl in *.

Section Frames.
Context `{Collaborators}.

Lemma set_retriever_same (p : ChatPDFProcessor) :
  set_retriever (retriever p) p = p.
Proof. by destruct p. Qed.

Lemma retriever_in_use_cached p vs k t r :
  retriever p = Some r -> retriever_in_use p vs k t = r.
Proof. unfold retriever_in_use. by intros ->. Qed.

(** [ingest_pdf] never assigns [self.retriever]. *)
Lemma ingest_pdf_retriever path s :
  retriever (self (snd (ingest_pdf path s))) = retriever (self s).
Proof. unfold ingest_pdf. unfold_m. repeat next_case; reflexivity. Qed.

(** An ingestion that raises, at whichever step, has assigned nothing. *)
Lemma ingest_pdf_raises path s e :
  fst (ingest_pdf path s) = inl e ->
  self (snd (ingest_pdf path s)) = self s.
Proof.
  unfold ingest_pdf. unfold_m. repeat next_case; intros; try reflexivity.
  discriminate.
Qed.

Lemma ingest_pdf_returns path s :
  succeeded (ingest_pdf path s) = true ->
  exists vs, vector_store (self (snd (ingest_pdf path s))) = Some vs.
Proof.
  unfold succeeded, ingest_pdf. unfold_m.
  repeat next_case; intros; try discriminate. eauto.
Qed.

Lemma query_tavily_self query s :
  self (snd (query_tavily query s)) = self s.
Proof. unfold query_tavily. unfold_m. repeat next_case; reflexivity. Qed.

Lemma chain_invoke_self input s :
  self (snd (chain_invoke input s)) = self s.
Proof. unfold chain_invoke. unfold_m. repeat next_case; reflexivity. Qed.

(** No query assigns [self.vector_store]. *)
Lemma query_document_vector_store query k t s :
  vector_store (self (snd (query_document query k t s)))
  = vector_store (self s).
Proof.
  unfold query_document. unfold_m.
  destruct (vector_store (self s)) as [vs|] eqn:Hvs; simpl; [|by rewrite Hvs].
  destruct (store_bool vs (world s)); simpl; [|by rewrite Hvs].
  destruct (retriever (self s)) as [r|]; simpl;
    (destruct (retriever_invoke _ query (world s)) as [[e|[|d ds]] w1];
     simpl; [by rewrite ?Hvs | |]);
    rewrite ?query_tavily_self, ?chain_invoke_self; simpl; by rewrite ?Hvs.
Qed.

Lemma clear_data_vector_store s :
  vector_store (self (snd (clear_data s))) = None.
Proof. reflexivity. Qed.

(** The index is absent whenever the history says so. *)
Lemma unindexed_no_store ops : forall s b,
  (b = true -> vector_store (self s) = None) ->
  unindexed ops s b = true ->
  vector_store (self (run ops s)) = None.
Proof.
  induction ops as [|o ops IH]; intros s b Hb Hun; simpl in *.
  - by apply Hb.
  - apply IH in Hun; [done|]. destruct o as [path|query k t|]; simpl.
    + destruct (succeeded (ingest_pdf path s)) eqn:Hok; [discriminate|].
      intros ->. unfold bind at 1. unfold succeeded in Hok.
      pose proof (ingest_pdf_raises path s) as Hraise.
      destruct (ingest_pdf path s) as [[e|[]] s']; simpl in *; [|discriminate].
      rewrite (Hraise e eq_refl). by apply Hb.
    + intros Hq. rewrite query_document_vector_store. by apply Hb.
    + reflexivity.
Qed.

Lemma query_document_no_store query k t s :
  vector_store (self s) = None ->
  query_document query k t s
  = (inl (ValueError "No document ingested. Please ingest a document first."), s).
Proof. unfold query_document. unfold_m. by intros ->. Qed.

(** No method assigns any attribute other than the two handles. *)
Lemma perform_configuration o s :
  configuration (self (snd (perform o s))) = configuration (self s).
Proof.
  destruct o as [path|query k t|]; simpl.
  - unfold ingest_pdf, configuration. unfold_m. repeat next_case; reflexivity.
  - unfold query_document. unfold_m.
    destruct (vector_store (self s)) as [vs|]; simpl; [|reflexivity].
    destruct (store_bool vs (world s)); simpl; [|reflexivity].
    destruct (retriever (self s)) as [r|]; simpl;
      (destruct (retriever_invoke _ query (world s)) as [[e|[|d ds]] w1];
       simpl; [reflexivity| |]);
      by rewrite ?query_tavily_self, ?chain_invoke_self.
  - reflexivity.
Qed.

Lemma run_configuration ops : forall s,
  configuration (self (run ops s)) = configuration (self s).
Proof.
  induction ops as [|o ops IH]; intros s; simpl; [reflexivity|].
  by rewrite IH, perform_configuration.
Qed.

(** In every session the constructor started, the prompt template is the
    fixed one and the splitter has size 1024 and overlap 100. *)
Lemma run_keeps_template llm embedding key w ops :
  template (prompt_template (self (run ops (start llm embedding key w))))
  = PROMPT.
Proof.
  pose proof (run_configuration ops (start llm embedding key w)) as Hc.
  unfold configuration in Hc.
  assert (prompt_template (self (run ops (start llm embedding key w)))
          = prompt_template (self (start llm embedding key w))) as ->
    by congruence.
  reflexivity.
Qed.

Lemma run_keeps_splitter llm embedding key w ops :
  text_splitter (self (run ops (start llm embedding key w)))
  = {| chunk_size := 1024; chunk_overlap := 100 |}.
Proof.
  pose proof (run_configuration ops (start llm embedding key w)) as Hc.
  unfold configuration in Hc.
  assert (text_splitter (self (run ops (start llm embedding key w)))
          = text_splitter (self (start llm embedding key w))) as ->
    by congruence.
  reflexivity.
Qed.
End Frames.

Section Query.
Context `{Collaborators}.

(** [join] is the standard library's concatenation with a separator. *)
Lemma join_concat sep parts : join sep parts = String.concat sep parts.
Proof.
  induction parts as [|p parts IH]; [reflexivity|].
  destruct parts as [|q parts]; [reflexivity|].
  change (p +:+ sep +:+ join sep (q :: parts)
          = p +:+ sep +:+ String.concat sep (q :: parts)).
  by rewrite IH.
Qed.

(** The template's two fields are replaced where they stand, whatever
    the context and the question contain. *)
Lemma format_PROMPT (context question : string) :
  format PROMPT {[ "context" := context; "question" := question ]}
  = inr (rendered_prompt context question).
Proof. vm_compute. reflexivity. Qed.

(** A query on an indexed session up to the end of its retrieval step. *)
Lemma query_document_retrieves query k t s vs out w1 :
  vector_store (self s) = Some vs ->
  store_bool vs (world s) = true ->
  retriever_invoke (retriever_in_use (self s) vs k t) query (world s)
  = (out, w1) ->
  query_document query k t s
  = let s1 := after_retrieval s (retriever_in_use (self s) vs k t) query w1 in
    match out with
    | inl e => (inl e, s1)
    | inr [] =>
        query_tavily query
          (note "No relevant context found in PDF. Using Tavily for fallback." s1)
    | inr docs =>
        chain_invoke
          {[ "context" := join (LF +:+ LF) (page_content <$> docs);
             "question" := query ]}
          (note "Generating response using the LLM." s1)
    end.
Proof.
  intros Hvs Htruth.
  pose proof (set_retriever_same (self s)) as Hsame.
  unfold retriever_in_use, after_retrieval, note, query_document.
  destruct (retriever (self s)) as [r|] eqn:Hr; intros Hsearch.
  - rewrite Hsame. unfold_m. rewrite Hvs; simpl. rewrite Htruth; simpl. rewrite Hr; simpl.
    rewrite Hsearch. by destruct out as [e|[|d ds]].
  - unfold_m. rewrite Hvs; simpl. rewrite Htruth; simpl. rewrite Hr; simpl.
    rewrite Hsearch. by destruct out as [e|[|d ds]].
Qed.

(** Once a retriever is cached, a query does not read its [k] and
    [score_threshold] arguments. *)
Lemma query_document_cached query k1 t1 k2 t2 s r :
  retriever (self s) = Some r ->
  query_document query k1 t1 s = query_document query k2 t2 s.
Proof.
  intros Hr. unfold query_document. unfold_m.
  destruct (vector_store (self s)) as [vs|]; simpl; [|reflexivity].
  destruct (store_bool vs (world s)); simpl; [|reflexivity].
  by rewrite Hr.
Qed.
End Query.

Section Claims.
Context `{Collaborators}.

(** C2.  In a session without an index, because no ingestion has returned
    since the processor was constructed or since the last [clear_data],
    [query_document] raises the ValueError that no document was ingested;
    it returns no answer and leaves the session as it was. *)
Theorem query_without_index_raises llm embedding key w ops query k t :
  unindexed ops (start llm embedding key w) true = true ->
  query_document query k t (run ops (start llm embedding key w))
  = (inl (ValueError "No document ingested. Please ingest a document first."),
     run ops (start llm embedding key w)).
Proof.
  intros Hun. apply query_document_no_store.
  by apply (unindexed_no_store ops _ true).
Qed.

(** C3.  When the retrieval step of a query on an indexed session finds
    no entry, the query is exactly the fallback search on the same
    question: same return value (or exception), same effects. *)
Theorem empty_retrieval_passes_fallback_through query k t s vs w1 :
  vector_store (self s) = Some vs ->
  store_bool vs (world s) = true ->
  retriever_invoke (retriever_in_use (self s) vs k t) query (world s)
  = (inr [], w1) ->
  query_document query k t s
  = query_tavily query
      (note "No relevant context found in PDF. Using Tavily for fallback."
         (after_retrieval s (retriever_in_use (self s) vs k t) query w1)).
Proof.
  intros Hvs Htruth Hsearch.
  by rewrite (query_document_retrieves query k t s vs _ w1 Hvs Htruth Hsearch).
Qed.

(** C4, as amended.  A response whose status is not 200 makes
    [query_tavily] return the fixed error text, whatever its body, decodable
    or not; nothing is raised. *)
Theorem non_200_gives_error_text query s response w1 :
  tavily_request (self s) query (world s) = (inr response, w1) ->
  status_code response <> 200%Z ->
  query_tavily query s
  = (inr (PStr "Tavily API error. Please try again later."),
     {| self := self s; world := w1; logged := logged s |}).
Proof.
  unfold tavily_request, TAVILY_URL, query_tavily. unfold_m.
  intros -> Hstatus; simpl.
  by destruct (Z.eqb_spec (status_code response) 200).
Qed.

(** C7.  When loading the document raises, [ingest_pdf] raises the same
    exception and the processor is what it was before the call: the store
    handle and the retriever handle in particular. *)
Theorem ingest_load_failure_keeps_processor path s e w1 :
  PyPDFLoader_load path (world s) = (inl e, w1) ->
  fst (ingest_pdf path s) = inl e
  /\ self (snd (ingest_pdf path s)) = self s
  /\ vector_store (self (snd (ingest_pdf path s))) = vector_store (self s)
  /\ retriever (self (snd (ingest_pdf path s))) = retriever (self s).
Proof.
  intros Hload.
  assert (fst (ingest_pdf path s) = inl e) as Hfst.
  { unfold ingest_pdf. unfold_m. by rewrite Hload. }
  pose proof (ingest_pdf_raises path s e Hfst) as Hself.
  by rewrite Hself.
Qed.

(** C8.  When the retrieval step finds entries, the context is their
    texts in result order with a blank line between each two (the
    standard library's [String.concat] with two line feeds), the prompt is
    the fixed template with that context and the question in their
    places, the chat model is called on that prompt, and its text is
    returned as it is. *)
Theorem retrieved_context_is_answered query k t s vs d ds w1 reply w2 :
  vector_store (self s) = Some vs ->
  store_bool vs (world s) = true ->
  template (prompt_template (self s)) = PROMPT ->
  retriever_invoke (retriever_in_use (self s) vs k t) query (world s)
  = (inr (d :: ds), w1) ->
  ChatOllama_invoke (llm_model (self s))
    [ {| role := "human";
         content :=
           rendered_prompt
             (String.concat (LF +:+ LF) (page_content <$> d :: ds)) query |} ]
    w1
  = (inr reply, w2) ->
  query_document query k t s
  = (inr (PStr (content reply)),
     {| self := set_retriever (Some (retriever_in_use (self s) vs k t)) (self s);
        world := w2;
        logged := logged s ++ ["Retrieving context for query: " +:+ query;
                               "Generating response using the LLM."] |}).
Proof.
  intros Hvs Htruth Htemplate Hsearch Hchat.
  rewrite (query_document_retrieves query k t s vs _ w1 Hvs Htruth Hsearch).
  unfold chain_invoke, after_retrieval, note. unfold_m.
  rewrite Htemplate, format_PROMPT, join_concat; simpl. rewrite Hchat; simpl.
  by rewrite <- app_assoc.
Qed.

(** C9, as amended.  A response with status 200 whose body decodes to a
    JSON object makes [query_tavily] return the object's [answer] field
    when it has one and the fixed no-answer text when it has none. *)
Theorem status_200_gives_answer_field query s response d w1 :
  tavily_request (self s) query (world s) = (inr response, w1) ->
  status_code response = 200%Z ->
  json response = inr (PDict d) ->
  query_tavily query s
  = (inr (match d !! "answer" with
          | Some answer => answer
          | None => PStr "No answer found in Tavily."
          end),
     {| self := self s; world := w1; logged := logged s |}).
Proof.
  unfold tavily_request, TAVILY_URL, query_tavily. unfold_m.
  intros -> -> ->. reflexivity.
Qed.

(** C10.  [clear_data] sets the store handle and the retriever handle to
    [None] and leaves the chat model, the embedding model, the text
    splitter, the prompt template and the API key as they were. *)
Theorem clear_data_frame s :
  let p := self s in
  let p' := self (snd (clear_data s)) in
  vector_store p' = None /\ retriever p' = None
  /\ llm_model p' = llm_model p
  /\ embedding_model p' = embedding_model p
  /\ text_splitter p' = text_splitter p
  /\ prompt_template p' = prompt_template p
  /\ tavily_api_key p' = tavily_api_key p
  /\ world (snd (clear_data s)) = world s
  /\ fst (clear_data s) = inr tt.
Proof. by repeat split. Qed.
End Claims.

(** ** Concrete runs *)

(** C1, at a failing input.  [a.pdf] is ingested and queried once with
    the defaults, then [b.pdf] is ingested.  The processor's store is now
    the handle the second ingestion created, but the retriever is still
    the object cached before it, bound to the first handle with the first
    query's configuration.  The next query, asking for one entry, runs on
    that retriever: it answers from two chunks and leaves the old retriever
    in place.  Had the ingestion dropped the cached retriever, the same
    query would build a retriever on the new handle, retrieve one chunk
    and cache it. *)
Theorem reingest_keeps_stale_retriever :
  vector_store (self Demo.reingested) = Some Demo.b_chunks
  /\ retriever (self Demo.reingested)
     = Some (as_retriever Demo.a_chunks "similarity_score_threshold"
               default_k default_score_threshold)
  /\ fst (query_document "alpha" 1 default_score_threshold Demo.reingested)
     = inr (PStr ("answer to: "
                  +:+ rendered_prompt
                        ("alpha one" +:+ LF +:+ LF +:+ "alpha two") "alpha"))
  /\ retriever
       (self (snd (query_document "alpha" 1 default_score_threshold
                     Demo.reingested)))
     = Some (as_retriever Demo.a_chunks "similarity_score_threshold"
               default_k default_score_threshold)
  /\ fst (query_document "alpha" 1 default_score_threshold Demo.invalidated)
     = inr (PStr ("answer to: " +:+ rendered_prompt "alpha one" "alpha"))
  /\ retriever
       (self (snd (query_document "alpha" 1 default_score_threshold
                     Demo.invalidated)))
     = Some (as_retriever Demo.b_chunks "similarity_score_threshold"
               1 default_score_threshold).
Proof. vm_compute. by repeat split. Qed.

(** C6, at a failing input.  After one query with the defaults (k = 5,
    threshold 0.2), a second query passes k = 1 and a threshold no score
    reaches.  It searches with the first call's configuration and answers
    from two chunks, where the same call as first query of the session
    retrieves nothing and falls back. *)
Theorem later_query_arguments_ignored :
  retriever (self Demo.asked)
  = Some (as_retriever Demo.a_chunks "similarity_score_threshold"
            default_k default_score_threshold)
  /\ query_document "alpha" 1 2%float Demo.asked
     = query_document "alpha" default_k default_score_threshold Demo.asked
  /\ fst (query_document "alpha" 1 2%float Demo.asked)
     = inr (PStr ("answer to: "
                  +:+ rendered_prompt
                        (join (LF +:+ LF) ["alpha one"; "alpha two"]) "alpha"))
  /\ fst (query_document "alpha" 1 2%float Demo.indexed)
     = inr (PStr "web: alpha").
Proof. vm_compute. by repeat split. Qed.

(** C4, a counterexample.  The search API answers with status 200 and a
    body that is not JSON: decoding raises, and [query_tavily] raises with
    it instead of returning a text. *)
Lemma malformed_200_body_raises :
  fst (tavily_request (self Demo.fresh) "garbled" (world Demo.fresh))
  = inr {| status_code := 200;
           json := inl (Foreign "JSONDecodeError" "Expecting value") |}
  /\ fst (query_tavily "garbled" Demo.fresh)
     = inl (Foreign "JSONDecodeError" "Expecting value").
Proof. vm_compute. by split. Qed.

(** C9, a counterexample.  The search API answers with status 200 and a
    JSON list: the body has no [answer] field, and [query_tavily] raises
    AttributeError instead of returning the no-answer text. *)
Lemma list_body_200_raises :
  fst (tavily_request (H := Outage.collaborators) (self Outage.fresh)
         "capital of France" (world Outage.fresh))
  = inr {| status_code := 200; json := inr (PList [PStr "first hit"]) |}
  /\ fst (query_tavily (H := Outage.collaborators) "capital of France"
            Outage.fresh)
     = inl (AttributeError "'list' object has no attribute 'get'").
Proof. vm_compute. by split. Qed.

Lemma query_without_index_raises_witness :
  unindexed Demo.cleared_history Demo.fresh true = true
  /\ fst (query_document "alpha" default_k default_score_threshold
            (run Demo.cleared_history Demo.fresh))
     = inl (ValueError "No document ingested. Please ingest a document first.").
Proof.
  split; [vm_compute; reflexivity|].
  unfold Demo.fresh.
  rewrite (query_without_index_raises (H := Demo.collaborators) default_llm_model default_embedding_model
             (Some "tvly-key") (Demo.went [] []) Demo.cleared_history "alpha"
             default_k
             default_score_threshold); [reflexivity|].
  vm_compute; reflexivity.
Defined.

Lemma empty_retrieval_passes_fallback_through_witness :
  fst (query_document "delta" default_k default_score_threshold Demo.indexed)
  = inr (PStr "web: delta").
Proof.
  rewrite (empty_retrieval_passes_fallback_through (H := Demo.collaborators) "delta" default_k
             default_score_threshold Demo.indexed Demo.a_chunks
             (Demo.went ["load a.pdf"; "index into chroma_db"; "search delta"]
                Demo.a_chunks));
    vm_compute; reflexivity.
Defined.

Lemma non_200_gives_error_text_witness :
  fst (query_tavily "outage" Demo.fresh)
  = inr (PStr "Tavily API error. Please try again later.").
Proof.
  rewrite (non_200_gives_error_text (H := Demo.collaborators) "outage" Demo.fresh
             {| status_code := 503;
                json := inl (Foreign "JSONDecodeError" "Expecting value") |}
             (Demo.went ["post https://api.tavily.com/v1/query"] [])).
  - reflexivity.
  - vm_compute; reflexivity.
  - simpl; lia.
Defined.

Lemma ingest_load_failure_keeps_processor_witness :
  fst (ingest_pdf "missing.pdf" Demo.asked)
  = inl (Foreign "FileNotFoundError" "missing.pdf")
  /\ vector_store (self (snd (ingest_pdf "missing.pdf" Demo.asked)))
     = Some Demo.a_chunks.
Proof.
  destruct (ingest_load_failure_keeps_processor (H := Demo.collaborators) "missing.pdf" Demo.asked
              (Foreign "FileNotFoundError" "missing.pdf")
              (Demo.noted "load missing.pdf" (world Demo.asked)))
    as (Hraise & _ & Hstore & _).
  - vm_compute; reflexivity.
  - split; [exact Hraise|]. rewrite Hstore. vm_compute; reflexivity.
Defined.

Lemma retrieved_context_is_answered_witness :
  fst (query_document "alpha" 2 default_score_threshold Demo.indexed)
  = inr (PStr
           ("answer to: " +:+ LF +:+
            "            " +:+ "You are a helpful assistant answering questions based on the uploaded document." +:+ LF +:+
            "            " +:+ "Context:" +:+ LF +:+
            "            " +:+ "alpha one" +:+ LF +:+ LF +:+ "alpha two" +:+ LF +:+
            "            " +:+ LF +:+
            "            " +:+ "Question:" +:+ LF +:+
            "            " +:+ "alpha" +:+ LF +:+
            "            " +:+ LF +:+
            "            " +:+ "Provide a clear and helpful explanation." +:+ LF +:+
            "            ")).
Proof.
  rewrite (retrieved_context_is_answered (H := Demo.collaborators) "alpha" 2
             default_score_threshold Demo.indexed Demo.a_chunks
             {| Demo.page_text := "alpha one"; Demo.page_source := "a.pdf" |}
             [ {| Demo.page_text := "alpha two"; Demo.page_source := "a.pdf" |} ]
             (Demo.went ["load a.pdf"; "index into chroma_db"; "search alpha"]
                Demo.a_chunks)
             {| role := "ai";
                content :=
                  "answer to: "
                  +:+ rendered_prompt
                        ("alpha one" +:+ LF +:+ LF +:+ "alpha two") "alpha" |}
             (Demo.went ["load a.pdf"; "index into chroma_db"; "search alpha";
                         "chat deepseek-coder:latest"] Demo.a_chunks));
    vm_compute; reflexivity.
Defined.

Lemma status_200_gives_answer_field_witness :
  fst (query_tavily "capital of France" Demo.fresh)
  = inr (PStr "web: capital of France")
  /\ fst (query_tavily "silent" Demo.fresh)
     = inr (PStr "No answer found in Tavily.").
Proof.
  split.
  - rewrite (status_200_gives_answer_field (H := Demo.collaborators) "capital of France" Demo.fresh
               {| status_code := 200;
                  json := inr (PDict {[ "answer" := PStr "web: capital of France" ]}) |}
               {[ "answer" := PStr "web: capital of France" ]}
               (Demo.went ["post https://api.tavily.com/v1/query"] []));
      vm_compute; reflexivity.
  - rewrite (status_200_gives_answer_field (H := Demo.collaborators) "silent" Demo.fresh
               {| status_code := 200; json := inr (PDict ∅) |} ∅
               (Demo.went ["post https://api.tavily.com/v1/query"] []));
      vm_compute; reflexivity.
Defined.

(** * Further properties of the methods *)

Section Handles.
Context `{Collaborators}.

(** What a query does to the processor: nothing, or it caches the
    retriever it searched with. *)
Lemma query_document_self query k t s :
  self (snd (query_document query k t s)) = self s
  \/ exists vs,
       vector_store (self s) = Some vs
       /\ self (snd (query_document query k t s))
          = set_retriever (Some (retriever_in_use (self s) vs k t)) (self s).
Proof.
  destruct (vector_store (self s)) as [vs|] eqn:Hvs.
  - destruct (store_bool vs (world s)) eqn:Htruth.
    + right. exists vs. split; [done|].
      destruct (retriever_invoke (retriever_in_use (self s) vs k t) query
                  (world s)) as [out w1] eqn:Hsearch.
      rewrite (query_document_retrieves query k t s vs out w1 Hvs Htruth Hsearch).
      destruct out as [e|[|d ds]]; simpl;
        by rewrite ?query_tavily_self, ?chain_invoke_self.
    + left. unfold query_document. unfold_m. rewrite Hvs; simpl.
      by rewrite Htruth.
  - left. by rewrite query_document_no_store.
Qed.

(** What an ingestion does to the processor: nothing, or it assigns the
    store. *)
Lemma ingest_pdf_self path s :
  self (snd (ingest_pdf path s)) = self s
  \/ exists store,
       self (snd (ingest_pdf path s)) = set_vector_store (Some store) (self s).
Proof.
  unfold ingest_pdf. unfold_m. repeat next_case; eauto.
Qed.

Lemma perform_handles_consistent o s :
  handles_consistent (self s) ->
  handles_consistent (self (snd (perform o s))).
Proof.
  intros Hinv. destruct o as [path|query k t|]; simpl.
  - unfold bind at 1.
    pose proof (ingest_pdf_self path s) as Hself.
    destruct (ingest_pdf path s) as [[e|[]] s1]; simpl in *;
      (destruct Hself as [->|[store ->]]; [done|]);
      intros r Hr; simpl in *; (split; [by eexists|]); by apply Hinv.
  - destruct (query_document_self query k t s) as [->|(vs & Hvs & ->)]; [done|].
    intros r Hr; simpl in *. rewrite Hvs. split; [by eexists|].
    injection Hr as <-. unfold retriever_in_use.
    destruct (retriever (self s)) as [r0|] eqn:Hr0; [|reflexivity].
    by apply Hinv.
  - intros r Hr. discriminate.
Qed.

Lemma run_handles_consistent ops : forall s,
  handles_consistent (self s) -> handles_consistent (self (run ops s)).
Proof.
  induction ops as [|o ops IH]; intros s Hinv; simpl; [done|].
  by apply IH, perform_handles_consistent.
Qed.

Lemma start_handles_consistent llm embedding key w :
  handles_consistent (self (start llm embedding key w)).
Proof. intros r Hr. discriminate. Qed.
End Handles.

Section Extras.
Context `{Collaborators}.

(** X1.  When the document loads but building the index raises,
    [ingest_pdf] raises the same exception and assigns nothing: the
    processor, a previous index included, is as before, and only the
    starting line is logged. *)
Theorem index_failure_keeps_processor path s docs w1 e w2 :
  PyPDFLoader_load path (world s) = (inr docs, w1) ->
  Chroma_from_documents
    (filter_complex_metadata (split_documents (text_splitter (self s)) docs))
    (embedding_model (self s)) "chroma_db" w1
  = (inl e, w2) ->
  ingest_pdf path s
  = (inl e,
     {| self := self s;
        world := w2;
        logged := logged s ++ ["Starting ingestion for file: " +:+ path] |}).
Proof.
  intros Hload Hindex. unfold ingest_pdf. unfold_m.
  rewrite Hload; simpl. by rewrite Hindex.
Qed.

(** X2.  Queries never change the index handle: after any number of
    them, answered or raising, [self.vector_store] is what it was. *)
Theorem queries_keep_index ops : forall s,
  only_queries ops = true ->
  vector_store (self (run ops s)) = vector_store (self s).
Proof.
  induction ops as [|o ops IH]; intros s Hq; simpl in *; [reflexivity|].
  apply andb_prop in Hq as [Ho Hq]. rewrite (IH _ Hq).
  destruct o as [path|query k t|]; try discriminate.
  apply query_document_vector_store.
Qed.

(** X3.  In every session the constructor started, a cached retriever
    comes with an index: [self.retriever] is never set while
    [self.vector_store] is [None]. *)
Theorem cached_retriever_has_index llm embedding key w ops r :
  retriever (self (run ops (start llm embedding key w))) = Some r ->
  is_Some (vector_store (self (run ops (start llm embedding key w)))).
Proof.
  intros Hr.
  by apply (run_handles_consistent ops _
              (start_handles_consistent llm embedding key w)) in Hr as [? _].
Qed.

(** X4.  In every session the constructor started, the cached retriever
    was built for the thresholded similarity search. *)
Theorem cached_retriever_search_type llm embedding key w ops r :
  retriever (self (run ops (start llm embedding key w))) = Some r ->
  search_type r = "similarity_score_threshold".
Proof.
  intros Hr.
  by apply (run_handles_consistent ops _
              (start_handles_consistent llm embedding key w)) in Hr as [_ ?].
Qed.

(** X5.  [clear_data] resets the processor: whatever was done in the
    session, after it the processor equals the one the constructor built
    from the same arguments. *)
Theorem clear_restores_constructed llm embedding key w ops :
  self (snd (clear_data (run ops (start llm embedding key w))))
  = init llm embedding key.
Proof.
  pose proof (run_configuration ops (start llm embedding key w)) as Hc.
  unfold configuration in Hc. simpl in Hc.
  change (self (snd (clear_data (run ops (start llm embedding key w)))))
    with (set_retriever None
            (set_vector_store None (self (run ops (start llm embedding key w))))).
  destruct (self (run ops (start llm embedding key w))).
  unfold init, set_retriever, set_vector_store. simpl in *.
  injection Hc as -> -> -> -> ->. reflexivity.
Qed.

(** X6.  After [clear_data] and a following ingestion that returned, the
    first query builds its retriever on the new store from its own [k]
    and [score_threshold], and caches it. *)
Theorem first_query_after_reset_uses_new_store path query k t s vs :
  let s2 := snd (ingest_pdf path (snd (clear_data s))) in
  vector_store (self s2) = Some vs ->
  store_bool vs (world s2) = true ->
  retriever (self (snd (query_document query k t s2)))
  = Some (as_retriever vs "similarity_score_threshold" k t).
Proof.
  intros s2 Hvs Htruth.
  assert (retriever (self s2) = None) as Hnone.
  { unfold s2. by rewrite ingest_pdf_retriever. }
  destruct (query_document_self query k t s2) as [Hsame|(vs' & Hvs' & ->)].
  - exfalso. revert Hsame. unfold query_document. unfold_m.
    rewrite Hvs; simpl. rewrite Htruth; simpl. rewrite Hnone; simpl.
    destruct (retriever_invoke _ query (world s2)) as [[e|[|d ds]] w1]; simpl;
      rewrite ?query_tavily_self, ?chain_invoke_self; simpl;
      intros Hsame; apply (f_equal retriever) in Hsame; simpl in Hsame;
      congruence.
  - simpl. unfold retriever_in_use. rewrite Hnone. congruence.
Qed.

(** X7.  When the search raises, the query raises the same exception:
    neither the fallback nor the chat model is called, and the retriever
    built for the search stays cached. *)
Theorem search_failure_propagates query k t s vs e w1 :
  vector_store (self s) = Some vs ->
  store_bool vs (world s) = true ->
  retriever_invoke (retriever_in_use (self s) vs k t) query (world s)
  = (inl e, w1) ->
  query_document query k t s
  = (inl e, after_retrieval s (retriever_in_use (self s) vs k t) query w1).
Proof.
  intros Hvs Htruth Hsearch.
  by rewrite (query_document_retrieves query k t s vs _ w1 Hvs Htruth Hsearch).
Qed.

(** X8.  When the chat model raises on the rendered prompt, the query
    raises the same exception; no fallback search is made. *)
Theorem chat_failure_propagates query k t s vs d ds w1 e w2 :
  vector_store (self s) = Some vs ->
  store_bool vs (world s) = true ->
  template (prompt_template (self s)) = PROMPT ->
  retriever_invoke (retriever_in_use (self s) vs k t) query (world s)
  = (inr (d :: ds), w1) ->
  ChatOllama_invoke (llm_model (self s))
    [ {| role := "human";
         content :=
           rendered_prompt
             (join (LF +:+ LF) (page_content <$> d :: ds)) query |} ] w1
  = (inl e, w2) ->
  fst (query_document query k t s) = inl e
  /\ world (snd (query_document query k t s)) = w2.
Proof.
  intros Hvs Htruth Htemplate Hsearch Hchat.
  rewrite (query_document_retrieves query k t s vs _ w1 Hvs Htruth Hsearch).
  unfold chain_invoke, after_retrieval, note. unfold_m.
  rewrite Htemplate, format_PROMPT; simpl. by rewrite Hchat.
Qed.

(** X9.  When the HTTP request itself raises, [query_tavily] raises the
    same exception: the soft error text is for answered requests only. *)
Theorem post_failure_propagates query s e w1 :
  tavily_request (self s) query (world s) = (inl e, w1) ->
  query_tavily query s
  = (inl e, {| self := self s; world := w1; logged := logged s |}).
Proof.
  unfold tavily_request, TAVILY_URL, query_tavily. unfold_m.
  by intros ->.
Qed.

(** X10.  A response with status 200 whose body does not decode makes
    [query_tavily] raise the decoder's exception. *)
Theorem undecodable_200_body_propagates query s response e w1 :
  tavily_request (self s) query (world s) = (inr response, w1) ->
  status_code response = 200%Z ->
  json response = inl e ->
  query_tavily query s
  = (inl e, {| self := self s; world := w1; logged := logged s |}).
Proof.
  unfold tavily_request, TAVILY_URL, query_tavily. unfold_m.
  by intros -> -> ->.
Qed.

(** X11.  A response with status 200 whose body decodes to something
    other than an object (a list, a string, a number, ...) makes
    [query_tavily] raise AttributeError: the value has no [get], and the
    message names its type. *)
Theorem non_object_200_body_raises query s response v w1 :
  tavily_request (self s) query (world s) = (inr response, w1) ->
  status_code response = 200%Z ->
  json response = inr v ->
  (forall d, v <> PDict d) ->
  query_tavily query s
  = (inl (AttributeError
            ("'" +:+ py_type_name v +:+ "' object has no attribute 'get'")),
     {| self := self s; world := w1; logged := logged s |}).
Proof.
  unfold tavily_request, TAVILY_URL, query_tavily. unfold_m.
  intros -> -> -> Hv; simpl. destruct v; try reflexivity.
  by destruct (Hv d).
Qed.

(** X12.  In every session the constructor started, an ingestion whose
    loader and index both answer hands the index the loaded documents
    split by the 1024/100 splitter and then filtered, together with the
    embedding model of the constructor and the directory [chroma_db];
    it assigns the store the index returns and logs both lines. *)
Theorem ingest_pipeline llm embedding key w ops path docs w1 store w2 :
  let s := run ops (start llm embedding key w) in
  PyPDFLoader_load path (world s) = (inr docs, w1) ->
  Chroma_from_documents
    (filter_complex_metadata
       (split_documents {| chunk_size := 1024; chunk_overlap := 100 |} docs))
    {| embedding_name := embedding |} "chroma_db" w1
  = (inr store, w2) ->
  ingest_pdf path s
  = (inr tt,
     {| self := set_vector_store (Some store) (self s);
        world := w2;
        logged :=
          logged s
          ++ ["Starting ingestion for file: " +:+ path;
              "Ingestion completed. Document embeddings stored successfully."] |}).
Proof.
  intros s Hload Hindex.
  pose proof (run_configuration ops (start llm embedding key w)) as Hc.
  fold s in Hc. unfold configuration in Hc. simpl in Hc.
  assert (text_splitter (self s)
          = {| chunk_size := 1024; chunk_overlap := 100 |}) as Hsplit
    by congruence.
  assert (embedding_model (self s) = {| embedding_name := embedding |})
    as Hemb by congruence.
  unfold ingest_pdf. unfold_m. rewrite Hload; simpl.
  rewrite Hsplit, Hemb, Hindex; simpl. by rewrite <- app_assoc.
Qed.

(** X13.  [ingest_pdf] always logs its starting line, and the completion
    line exactly when it returns: a raised ingestion never reports
    success. *)
Theorem ingest_logs_completion_iff_returned path s :
  logged (snd (ingest_pdf path s))
  = (logged s
     ++ ("Starting ingestion for file: " +:+ path)
        :: (if succeeded (ingest_pdf path s)
            then ["Ingestion completed. Document embeddings stored successfully."]
            else []))%list.
Proof.
  unfold succeeded, ingest_pdf. unfold_m. repeat next_case;
    rewrite <- ?app_assoc; reflexivity.
Qed.

(** X14.  [query_tavily] assigns no attribute and logs nothing, whatever
    the request does: its only effect is the request. *)
Theorem query_tavily_frame query s :
  self (snd (query_tavily query s)) = self s
  /\ logged (snd (query_tavily query s)) = logged s.
Proof.
  unfold query_tavily. unfold_m. repeat next_case; by split.
Qed.

(** X15.  When the search finds nothing and the HTTP request of the
    fallback raises, the query raises that exception: the fallback does
    not shield the query from a transport failure. *)
Theorem fallback_transport_failure_reaches_caller query k t s vs w1 e w2 :
  vector_store (self s) = Some vs ->
  store_bool vs (world s) = true ->
  retriever_invoke (retriever_in_use (self s) vs k t) query (world s)
  = (inr [], w1) ->
  tavily_request (self s) query w1 = (inl e, w2) ->
  fst (query_document query k t s) = inl e
  /\ world (snd (query_document query k t s)) = w2.
Proof.
  intros Hvs Htruth Hsearch Hpost.
  rewrite (query_document_retrieves query k t s vs _ w1 Hvs Htruth Hsearch).
  unfold tavily_request, TAVILY_URL in Hpost.
  unfold query_tavily, after_retrieval, note. unfold_m.
  by rewrite Hpost.
Qed.
End Extras.

(** ** Concrete runs of the further properties *)

Lemma index_failure_keeps_processor_witness :
  fst (ingest_pdf (H := Outage.collaborators) "huge.pdf" Outage.indexed)
  = inl (Foreign "ConnectionError" "embedding service unreachable")
  /\ vector_store
       (self (snd (ingest_pdf (H := Outage.collaborators) "huge.pdf"
                     Outage.indexed)))
     = Some [ {| Demo.page_text := "notes.pdf";
                 Demo.page_source := "notes.pdf" |} ].
Proof.
  rewrite (index_failure_keeps_processor (H := Outage.collaborators)
             "huge.pdf" Outage.indexed
             [ {| Demo.page_text := "huge.pdf"; Demo.page_source := "huge.pdf" |} ]
             (Demo.went
                ["load notes.pdf"; "index into chroma_db"; "load huge.pdf"]
                [ {| Demo.page_text := "notes.pdf"; Demo.page_source := "notes.pdf" |} ])
             (Foreign "ConnectionError" "embedding service unreachable")
             (Demo.went
                ["load notes.pdf"; "index into chroma_db"; "load huge.pdf";
                 "index refused"]
                [ {| Demo.page_text := "notes.pdf"; Demo.page_source := "notes.pdf" |} ]));
    [split|..]; vm_compute; reflexivity.
Defined.

Lemma queries_keep_index_witness :
  vector_store
    (self (run [ Query "alpha" 2 default_score_threshold;
                 Query "garbled" default_k default_score_threshold ]
             Demo.indexed))
  = Some Demo.a_chunks.
Proof.
  rewrite (queries_keep_index (H := Demo.collaborators)
             [ Query "alpha" 2 default_score_threshold;
               Query "garbled" default_k default_score_threshold ]
             Demo.indexed);
    vm_compute; reflexivity.
Defined.

Lemma cached_retriever_has_index_witness :
  is_Some (vector_store (self Demo.asked)).
Proof.
  apply (cached_retriever_has_index (H := Demo.collaborators)
           default_llm_model default_embedding_model (Some "tvly-key")
           (Demo.went [] [])
           [Ingest "a.pdf"; Query "alpha" default_k default_score_threshold]
           (as_retriever (H := Demo.collaborators) Demo.a_chunks
              "similarity_score_threshold" default_k default_score_threshold)).
  vm_compute; reflexivity.
Defined.

Lemma cached_retriever_search_type_witness :
  search_type
    (as_retriever (H := Demo.collaborators) Demo.a_chunks
       "similarity_score_threshold" default_k default_score_threshold)
  = "similarity_score_threshold".
Proof.
  apply (cached_retriever_search_type (H := Demo.collaborators)
           default_llm_model default_embedding_model (Some "tvly-key")
           (Demo.went [] [])
           [Ingest "a.pdf"; Query "alpha" default_k default_score_threshold]).
  vm_compute; reflexivity.
Defined.

Lemma first_query_after_reset_uses_new_store_witness :
  retriever
    (self (snd (query_document "beta" 1 0.5%float
                  (snd (ingest_pdf "b.pdf" (snd (clear_data Demo.asked)))))))
  = Some (as_retriever (H := Demo.collaborators) Demo.b_chunks
            "similarity_score_threshold" 1 0.5%float).
Proof.
  apply (first_query_after_reset_uses_new_store (H := Demo.collaborators)
           "b.pdf" "beta" 1 0.5%float Demo.asked Demo.b_chunks);
    vm_compute; reflexivity.
Defined.

Lemma search_failure_propagates_witness :
  fst (query_document (H := Outage.collaborators) "timeout" default_k
         default_score_threshold Outage.indexed)
  = inl (Foreign "ReadTimeout" "vector database").
Proof.
  rewrite (search_failure_propagates (H := Outage.collaborators) "timeout"
             default_k default_score_threshold Outage.indexed
             [ {| Demo.page_text := "notes.pdf";
                  Demo.page_source := "notes.pdf" |} ]
             (Foreign "ReadTimeout" "vector database")
             (Demo.went
                ["load notes.pdf"; "index into chroma_db"; "search timed out"]
                [ {| Demo.page_text := "notes.pdf"; Demo.page_source := "notes.pdf" |} ]));
    vm_compute; reflexivity.
Defined.

Lemma chat_failure_propagates_witness :
  fst (query_document (H := Outage.collaborators) "notes" default_k
         default_score_threshold Outage.indexed)
  = inl (Foreign "ResponseError" "model not found").
Proof.
  apply (chat_failure_propagates (H := Outage.collaborators) "notes"
           default_k default_score_threshold Outage.indexed
           [ {| Demo.page_text := "notes.pdf";
                Demo.page_source := "notes.pdf" |} ]
           {| Demo.page_text := "notes.pdf"; Demo.page_source := "notes.pdf" |}
           []
           (Demo.went
              ["load notes.pdf"; "index into chroma_db"; "search notes"]
              [ {| Demo.page_text := "notes.pdf"; Demo.page_source := "notes.pdf" |} ])
           (Foreign "ResponseError" "model not found")
           (Demo.went
              ["load notes.pdf"; "index into chroma_db"; "search notes";
               "chat refused"]
              [ {| Demo.page_text := "notes.pdf"; Demo.page_source := "notes.pdf" |} ]));
    vm_compute; reflexivity.
Defined.

Lemma post_failure_propagates_witness :
  fst (query_tavily (H := Outage.collaborators) "offline" Outage.fresh)
  = inl (Foreign "ConnectionError" "api.tavily.com").
Proof.
  rewrite (post_failure_propagates (H := Outage.collaborators) "offline"
             Outage.fresh (Foreign "ConnectionError" "api.tavily.com")
             (Demo.went ["post failed"] []));
    vm_compute; reflexivity.
Defined.

Lemma undecodable_200_body_propagates_witness :
  fst (query_tavily "garbled" Demo.indexed)
  = inl (Foreign "JSONDecodeError" "Expecting value").
Proof.
  rewrite (undecodable_200_body_propagates (H := Demo.collaborators) "garbled"
             Demo.indexed
             {| status_code := 200;
                json := inl (Foreign "JSONDecodeError" "Expecting value") |}
             (Foreign "JSONDecodeError" "Expecting value")
             (Demo.went ["load a.pdf"; "index into chroma_db";
                         "post https://api.tavily.com/v1/query"]
                Demo.a_chunks));
    vm_compute; reflexivity.
Defined.

Lemma non_object_200_body_raises_witness :
  fst (query_tavily (H := Outage.collaborators) "weather" Outage.fresh)
  = inl (AttributeError "'list' object has no attribute 'get'").
Proof.
  rewrite (non_object_200_body_raises (H := Outage.collaborators) "weather"
             Outage.fresh
             {| status_code := 200; json := inr (PList [PStr "first hit"]) |}
             (PList [PStr "first hit"])
             (Demo.went ["post https://api.tavily.com/v1/query"] [])).
  - reflexivity.
  - vm_compute; reflexivity.
  - reflexivity.
  - reflexivity.
  - intros d; discriminate.
Defined.

Lemma ingest_pipeline_witness :
  vector_store
    (self (snd (ingest_pdf "b.pdf"
                  (run [ Ingest "a.pdf";
                         Query "alpha" default_k default_score_threshold;
                         Clear ] Demo.fresh))))
  = Some Demo.b_chunks.
Proof.
  unfold Demo.fresh.
  rewrite (ingest_pipeline (H := Demo.collaborators) default_llm_model
             default_embedding_model (Some "tvly-key") (Demo.went [] [])
             [ Ingest "a.pdf"; Query "alpha" default_k default_score_threshold;
               Clear ]
             "b.pdf" Demo.b_chunks
             (Demo.went
                ["load a.pdf"; "index into chroma_db"; "search alpha";
                 "chat deepseek-coder:latest"; "load b.pdf"]
                Demo.a_chunks)
             Demo.b_chunks
             (Demo.went
                ["load a.pdf"; "index into chroma_db"; "search alpha";
                 "chat deepseek-coder:latest"; "load b.pdf";
                 "index into chroma_db"]
                (Demo.a_chunks ++ Demo.b_chunks)%list));
    vm_compute; reflexivity.
Defined.

Lemma fallback_transport_failure_reaches_caller_witness :
  fst (query_document (H := Outage.collaborators) "offline" default_k
         default_score_threshold Outage.indexed)
  = inl (Foreign "ConnectionError" "api.tavily.com").
Proof.
  apply (fallback_transport_failure_reaches_caller (H := Outage.collaborators)
           "offline" default_k default_score_threshold Outage.indexed
           [ {| Demo.page_text := "notes.pdf";
                Demo.page_source := "notes.pdf" |} ]
           (Demo.went
              ["load notes.pdf"; "index into chroma_db"; "search offline"]
              [ {| Demo.page_text := "notes.pdf"; Demo.page_source := "notes.pdf" |} ])
           (Foreign "ConnectionError" "api.tavily.com")
           (Demo.went
              ["load notes.pdf"; "index into chroma_db"; "search offline";
               "post failed"]
              [ {| Demo.page_text := "notes.pdf"; Demo.page_source := "notes.pdf" |} ]));
    vm_compute; reflexivity.
Defined.
